(** * MetadataService: tag normalisation and GPS coordinate resolution

    A shallow embedding of [MetadataService] (the TypeScript service that
    cleans the tag dictionary of an image decoder and derives decimal GPS
    coordinates from it), together with the properties its specification
    states about it.

    Modelling choices, all taken from what the code does at run time:
    - a JavaScript number is an IEEE 754 binary64 value: [spec_float] of the
      Standard Library with precision 53 and maximal exponent 1024, and its
      correctly rounded operations;
    - a JavaScript value is a tree: primitives, arrays, plain objects (own
      string-keyed properties, as a [gmap]) and typed-array views;
    - a [TypeError] is an explicit outcome of the [result] monad;
    - strings are sequences of bytes; trimming and upper-casing act on the
      ASCII range and leave other bytes as they are. *)

From Stdlib Require Import ZArith String Ascii List DecimalString.
From Stdlib Require Import Floats.SpecFloat.
From stdpp Require Import gmap strings list fin_maps.

#[local] Open Scope string_scope.
#[local] Open Scope Z_scope.
#[local] Set Warnings "-register-all".

(** ** Numbers *)

Module Num.

Definition number : Type := spec_float.

Definition prec : Z := 53.
Definition emax : Z := 1024.

Definition NaN : number := S754_nan.
Definition Infinity : number := S754_infinity false.

(** The number denoted by an integer literal. *)
Definition ofZ (z : Z) : number := binary_normalize prec emax z 0 false.

Definition add : number -> number -> number := SFadd prec emax.
Definition div : number -> number -> number := SFdiv prec emax.
Definition neg : number -> number := SFopp.
Definition abs : number -> number := SFabs.

(** [a === b], [a < b], [a > b] and [a >= b] on numbers. *)
Definition eqb : number -> number -> bool := SFeqb.
Definition ltb : number -> number -> bool := SFltb.
Definition gtb (a b : number) : bool := SFltb b a.
Definition geb (a b : number) : bool := SFleb b a.

Definition isNaN (x : number) : bool :=
  match x with S754_nan => true | _ => false end.

Definition isZero (x : number) : bool :=
  match x with S754_zero _ => true | _ => false end.

(** The value [m * 10^e] of a decimal literal with digits [m > 0],
    rounded to the nearest number, ties to even. For [e < 0] the
    quotient of the integers [m] and [10^(-e)] is rounded once: the
    division takes mantissas of any size. *)
Definition ofDecimal (sign : bool) (m : positive) (e : Z) : number :=
  if 0 <=? e
  then binary_normalize prec emax
         ((if sign then Z.opp else id) (Z.pos m * 10 ^ e)) 0 false
  else SFdiv prec emax (S754_finite sign m 0)
         (S754_finite false (Z.to_pos (10 ^ (- e))) 0).

End Num.

Abbreviation number := Num.number.

(** ** Strings *)

Module Str.

Definition isDigit (c : ascii) : bool :=
  let n := N_of_ascii c in ((48 <=? n) && (n <=? 57))%N.

Definition digitVal (c : ascii) : Z := Z.of_N (N_of_ascii c) - 48.

(** ASCII white space and line terminators. *)
Definition isWhite (c : ascii) : bool :=
  let n := N_of_ascii c in
  ((n =? 32) || ((9 <=? n) && (n <=? 13)))%N.

Fixpoint trimStart (s : string) : string :=
  match s with
  | String c r => if isWhite c then trimStart r else s
  | EmptyString => EmptyString
  end.

Fixpoint trimEnd (s : string) : string :=
  match s with
  | String c r =>
      match trimEnd r with
      | EmptyString => if isWhite c then EmptyString else String c EmptyString
      | r' => String c r'
      end
  | EmptyString => EmptyString
  end.

Definition trim (s : string) : string := trimEnd (trimStart s).

Definition upperChar (c : ascii) : ascii :=
  let n := N_of_ascii c in
  if ((97 <=? n) && (n <=? 122))%N then ascii_of_N (n - 32) else c.

Fixpoint toUpperCase (s : string) : string :=
  match s with
  | String c r => String (upperChar c) (toUpperCase r)
  | EmptyString => EmptyString
  end.

Definition startsWith (s p : string) : bool := String.prefix p s.

Definition isEmpty (s : string) : bool :=
  match s with EmptyString => true | _ => false end.

Fixpoint repeat0 (n : nat) : string :=
  match n with O => EmptyString | S k => String "0" (repeat0 k) end.

(** Decimal digits of a natural number, without sign. *)
Definition ofN (n : N) : string :=
  DecimalString.NilZero.string_of_uint (N.to_uint n).

Definition ofZabs (z : Z) : string := ofN (Z.abs_N z).

Definition len (s : string) : Z := Z.of_nat (String.length s).

Definition take (n : Z) (s : string) : string := substring 0%nat (Z.to_nat n) s.
Definition drop (n : Z) (s : string) : string :=
  substring (Z.to_nat n) (String.length s - Z.to_nat n)%nat s.

(** The longest run of digits at the head of [s], and what follows. *)
Fixpoint spanDigits (s : string) : string * string :=
  match s with
  | String c r =>
      if isDigit c then let '(d, t) := spanDigits r in (String c d, t)
      else (EmptyString, s)
  | EmptyString => (EmptyString, EmptyString)
  end.

Fixpoint digitsToZ (acc : Z) (s : string) : Z :=
  match s with
  | String c r => digitsToZ (10 * acc + digitVal c) r
  | EmptyString => acc
  end.

End Str.

(** ** Numbers to strings and back

    [Number::toString], [Number.prototype.toFixed], [parseFloat] and
    [StringToNumber] as ECMA-262 defines them, computed on exact
    fractions. *)

Module Conv.

Import Str.

(** The exact value [m * 2^e] of a positive finite number, as a
    fraction. *)
Definition fraction (m : positive) (e : Z) : Z * Z :=
  if 0 <=? e then (Z.pos m * 2 ^ e, 1) else (Z.pos m, 2 ^ (- e)).

(** [floor (x * 10^p)] for the fraction [x]. *)
Definition scaleFloor (x : Z * Z) (p : Z) : Z :=
  let '(n, d) := x in
  if 0 <=? p then (n * 10 ^ p) / d else n / (d * 10 ^ (- p)).

(** For [x < 1], the [n] with [10^(n-1) <= x < 10^n]: [j] counts the
    places after the point up to the first digit that is not zero. *)
Fixpoint smallExponent (fuel : nat) (x : Z * Z) (j : Z) : Z :=
  match fuel with
  | O => 1 - j
  | S f => if 1 <=? scaleFloor x j then 1 - j else smallExponent f x (j + 1)
  end.

(** The [n] with [10^(n-1) <= x < 10^n]. *)
Definition decimalExponent (x : Z * Z) : Z :=
  let ip := scaleFloor x 0 in
  if 1 <=? ip then len (ofZabs ip) else smallExponent 400 x 1.

(** Whether the decimal [s * 10^q] denotes the number [x]. *)
Definition denotes (x : number) (s q : Z) : bool :=
  match s with
  | Z.pos p => Num.eqb (Num.ofDecimal false p q) x
  | _ => false
  end.

(** Of the neighbours [lo * 10^q] and [(lo + 1) * 10^q] of the fraction
    [x], the one closer to [x]; the even one when both are as close. *)
Definition closer (x : Z * Z) (lo q : Z) : Z :=
  let '(n, d) := x in
  let '(l, r) :=
    if 0 <=? q then (2 * n, (2 * lo + 1) * 10 ^ q * d)
    else (2 * n * 10 ^ (- q), (2 * lo + 1) * d) in
  match l ?= r with
  | Lt => lo
  | Gt => lo + 1
  | Eq => if Z.even lo then lo else lo + 1
  end.

(** The digits [s] and their count [k], [k] as small as possible, such
    that [s * 10^(n-k)] denotes [x]; [k] is tried from its current
    value upwards. *)
Fixpoint shortest (fuel : nat) (x : number) (fr : Z * Z) (n k : Z) : Z * Z :=
  let q := n - k in
  let lo := scaleFloor fr (- q) in
  match fuel with
  | O => (lo, k)
  | S f =>
      match denotes x lo q, denotes x (lo + 1) q with
      | true, true => (closer fr lo q, k)
      | true, false => (lo, k)
      | false, true => (lo + 1, k)
      | false, false => shortest f x fr n (k + 1)
      end
  end.

(** The layout of [Number::toString] for the digits [s] ([k] of them)
    and the exponent [n]. *)
Definition layout (s k n : Z) : string :=
  let ds := ofZabs s in
  if (k <=? n) && (n <=? 21) then ds +:+ repeat0 (Z.to_nat (n - k))
  else if (0 <? n) && (n <=? 21) then take n ds +:+ "." +:+ drop n ds
  else if (-6 <? n) && (n <=? 0) then "0." +:+ repeat0 (Z.to_nat (- n)) +:+ ds
  else
    let ex := (if 0 <=? n - 1 then "+" else "-") +:+ ofZabs (n - 1) in
    if k =? 1 then ds +:+ "e" +:+ ex
    else take 1 ds +:+ "." +:+ drop 1 ds +:+ "e" +:+ ex.

Definition toStringPos (m : positive) (e : Z) : string :=
  let fr := fraction m e in
  let n := decimalExponent fr in
  let '(s, k) := shortest 17 (S754_finite false m e) fr n 1 in
  if s =? 10 ^ k then layout 1 1 (n + 1) else layout s k n.

(** [Number::toString(x)], radix 10. *)
Definition toString (x : number) : string :=
  match x with
  | S754_nan => "NaN"
  | S754_zero _ => "0"
  | S754_infinity s => if s then "-Infinity" else "Infinity"
  | S754_finite s m e =>
      (if s then "-" else EmptyString) +:+ toStringPos m e
  end.

(** [x.toFixed(f)] for [0 <= f]. *)
Definition toFixed (f : Z) (x : number) : string :=
  let fixed (sign : bool) (n : Z) :=
    let m := ofZabs n in
    let m := if len m <=? f
             then repeat0 (Z.to_nat (f + 1 - len m)) +:+ m else m in
    let m := if f =? 0 then m
             else take (len m - f) m +:+ "." +:+ drop (len m - f) m in
    (if sign then "-" else EmptyString) +:+ m in
  match x with
  | S754_nan | S754_infinity _ => toString x
  | S754_zero _ => fixed false 0
  | S754_finite s m e =>
      let '(n, d) := fraction m e in
      if 10 ^ 21 <=? n / d
      then (if s then "-" else EmptyString) +:+ toStringPos m e
      else fixed s ((2 * n * 10 ^ f + d) / (2 * d))
  end.

Definition parseSign (s : string) : bool * string :=
  match s with
  | String "-" r => (true, r)
  | String "+" r => (false, r)
  | _ => (false, s)
  end.

(** The exponent part [e], [e+d..] or [e-d..] at the head of [s], when
    there is one. *)
Definition parseExponent (s : string) : Z * string :=
  match s with
  | String c r =>
      if (c =? "e")%char || (c =? "E")%char then
        let '(sg, r1) := parseSign r in
        let '(ds, r2) := spanDigits r1 in
        if isEmpty ds then (0, s)
        else ((if sg then Z.opp else id) (digitsToZ 0 ds), r2)
      else (0, s)
  | EmptyString => (0, s)
  end.

(** The longest [StrUnsignedDecimalLiteral] at the head of [s]: its
    value with the given sign, and the rest of [s]. *)
Definition parseUnsigned (sign : bool) (s : string) : option (number * string) :=
  if String.prefix "Infinity" s then Some (S754_infinity sign, drop 8 s)
  else
    let '(ip, r1) := spanDigits s in
    let '(fp, r2) :=
      match r1 with
      | String "." r =>
          let '(fp, r') := spanDigits r in
          if isEmpty ip && isEmpty fp then (EmptyString, r1) else (fp, r')
      | _ => (EmptyString, r1)
      end in
    if isEmpty ip && isEmpty fp then None
    else
      let '(ex, r3) := parseExponent r2 in
      Some (match digitsToZ 0 (ip +:+ fp) with
            | Z.pos p => Num.ofDecimal sign p (ex - len fp)
            | _ => S754_zero sign
            end, r3).

(** [parseFloat(s)]. *)
Definition parseFloat (s : string) : number :=
  let '(sg, r) := parseSign (trimStart s) in
  match parseUnsigned sg r with
  | Some (v, _) => v
  | None => Num.NaN
  end.

Definition radixDigit (radix : Z) (c : ascii) : option Z :=
  let n := Z.of_N (N_of_ascii c) in
  let v := if (48 <=? n) && (n <=? 57) then n - 48
           else if (97 <=? n) && (n <=? 122) then n - 87
           else if (65 <=? n) && (n <=? 90) then n - 55
           else radix in
  if v <? radix then Some v else None.

Fixpoint radixToZ (radix acc : Z) (s : string) : option Z :=
  match s with
  | String c r =>
      match radixDigit radix c with
      | Some v => radixToZ radix (radix * acc + v) r
      | None => None
      end
  | EmptyString => Some acc
  end.

(** The radix of a [0x], [0o] or [0b] literal, and its digits. *)
Definition radixPrefix (s : string) : option (Z * string) :=
  match s with
  | String "0" (String c (String d r)) =>
      let ds := String d r in
      if (c =? "x")%char || (c =? "X")%char then Some (16, ds)
      else if (c =? "o")%char || (c =? "O")%char then Some (8, ds)
      else if (c =? "b")%char || (c =? "B")%char then Some (2, ds)
      else None
  | _ => None
  end.

(** [StringToNumber(s)]: the whole trimmed string is one numeric
    literal, or the result is [NaN]; the empty string is [+0]. *)
Definition stringToNumber (s : string) : number :=
  let t := trim s in
  if isEmpty t then S754_zero false
  else
    match radixPrefix t with
    | Some (radix, ds) =>
        match radixToZ radix 0 ds with
        | Some z => Num.ofZ z
        | None => Num.NaN
        end
    | None =>
        let '(sg, r) := parseSign t in
        match parseUnsigned sg r with
        | Some (v, EmptyString) => v
        | _ => Num.NaN
        end
    end.

End Conv.

(** ** Values and exceptions *)

(** A JavaScript value as the decoder hands it over: a primitive, an
    array, a plain object with its own properties, or a typed-array view
    ([Uint8Array] and the like) with its elements. Property names that
    shadow a member of [Object.prototype] are not modelled. *)
Inductive value : Type :=
| VUndefined
| VNull
| VBool (b : bool)
| VNum (n : number)
| VStr (s : string)
| VArr (elems : list value)
| VObj (props : gmap string value)
| VView (elems : list number).

(** [MetadataData] and [CleanedData]: [{ [key: string]: any }]. *)
Abbreviation dict := (gmap string value).

Inductive error : Type := TypeError.

Inductive result (A : Type) : Type :=
| Ok (a : A)
| Throw (e : error).

Arguments Ok {A} a.
Arguments Throw {A} e.

#[global] Instance result_ret : MRet result := fun _ a => Ok a.
#[global] Instance result_bind : MBind result := fun _ _ f r =>
  match r with Ok a => f a | Throw e => Throw e end.

Definition returns {A} (r : result A) : Prop := exists a, r = Ok a.

Module JS.

(** [!!v] *)
Definition truthy (v : value) : bool :=
  match v with
  | VUndefined | VNull => false
  | VBool b => b
  | VNum n => negb (Num.isZero n || Num.isNaN n)
  | VStr s => negb (Str.isEmpty s)
  | VArr _ | VObj _ | VView _ => true
  end.

(** [a || b] *)
Definition or (a b : value) : value := if truthy a then a else b.

(** [typeof v === 'object'] *)
Definition typeofObject (v : value) : bool :=
  match v with
  | VNull | VArr _ | VObj _ | VView _ => true
  | _ => false
  end.

Definition isNull (v : value) : bool :=
  match v with VNull => true | _ => false end.

(** [Array.isArray(v)] *)
Definition isArray (v : value) : bool :=
  match v with VArr _ => true | _ => false end.

(** [ArrayBuffer.isView(v)] *)
Definition isView (v : value) : bool :=
  match v with VView _ => true | _ => false end.

(** [v.k] on a [v] that is neither [undefined] nor [null], for the
    property names [value] and [description]: only a plain object has
    them. *)
Definition get (v : value) (k : string) : value :=
  match v with
  | VObj props => default VUndefined (props !! k)
  | _ => VUndefined
  end.

(** [v?.k] *)
Definition getOpt (v : value) (k : string) : value :=
  match v with
  | VUndefined | VNull => VUndefined
  | _ => get v k
  end.

(** [k in v] on an object [v], for the same property names. *)
Definition has (k : string) (v : value) : bool :=
  match v with
  | VObj props => bool_decide (is_Some (props !! k))
  | _ => false
  end.

(** [d.k] on a dictionary. *)
Definition field (d : dict) (k : string) : value :=
  default VUndefined (d !! k).

(** [v.length] and [v[i]] on an array. *)
Definition length (v : value) : Z :=
  match v with VArr elems => Z.of_nat (List.length elems) | _ => 0 end.

Definition index (v : value) (i : nat) : value :=
  match v with VArr elems => nth i elems VUndefined | _ => VUndefined end.

(** The abstract operation [ToString]; an array joins its elements with
    commas, [undefined] and [null] elements giving the empty string. *)
Fixpoint ToString (v : value) : string :=
  match v with
  | VUndefined => "undefined"
  | VNull => "null"
  | VBool b => if b then "true" else "false"
  | VNum n => Conv.toString n
  | VStr s => s
  | VArr elems =>
      String.concat ","
        (List.map (fun x => match x with
                            | VUndefined | VNull => EmptyString
                            | _ => ToString x
                            end) elems)
  | VObj _ => "[object Object]"
  | VView elems => String.concat "," (List.map Conv.toString elems)
  end.

(** The method call [v.toString()]. *)
Definition toString (v : value) : result string :=
  match v with
  | VUndefined | VNull => Throw TypeError
  | _ => Ok (ToString v)
  end.

(** The abstract operation [ToNumber]. *)
Definition ToNumber (v : value) : number :=
  match v with
  | VUndefined => Num.NaN
  | VNull => Num.ofZ 0
  | VBool b => if b then Num.ofZ 1 else Num.ofZ 0
  | VNum n => n
  | VStr s => Conv.stringToNumber s
  | _ => Conv.stringToNumber (ToString v)
  end.

(** [v === 0] *)
Definition strictEqZero (v : value) : bool :=
  match v with VNum n => Num.eqb n (Num.ofZ 0) | _ => false end.

(** The array pattern [[a, b]] applied to [v]: the first two values its
    iterator yields (elements of an array or a view, characters of a
    string); a value without an iterator throws. *)
Definition destructure2 (v : value) : result (value * value) :=
  match v with
  | VArr elems => Ok (nth 0 elems VUndefined, nth 1 elems VUndefined)
  | VView elems =>
      let at_ i := match nth_error elems i with
                   | Some n => VNum n
                   | None => VUndefined
                   end in
      Ok (at_ 0%nat, at_ 1%nat)
  | VStr s =>
      match s with
      | String a (String b _) =>
          Ok (VStr (String a EmptyString), VStr (String b EmptyString))
      | String a EmptyString => Ok (VStr (String a EmptyString), VUndefined)
      | EmptyString => Ok (VUndefined, VUndefined)
      end
  | _ => Throw TypeError
  end.

End JS.

(** ** The service *)

Record LocationCoordinates : Type := {
  latitude : number;
  longitude : number;
  formatted : string;
  mapsUrl : string
}.

(** A [LocationCoordinates] object stored as a value of the cleaned
    dictionary. *)
Definition coordinatesValue (c : LocationCoordinates) : value :=
  VObj (<["latitude" := VNum (latitude c)]>
       (<["longitude" := VNum (longitude c)]>
       (<["formatted" := VStr (formatted c)]>
       (<["mapsUrl" := VStr (mapsUrl c)]> ∅)))).

Module MetadataService.

(** [([num, denom]) => denom === 0 ? 0 : num / denom] *)
Definition safeDivide (arg : value) : result number :=
  '(num, denom) ← JS.destructure2 arg;
  mret (if JS.strictEqZero denom then Num.ofZ 0
        else Num.div (JS.ToNumber num) (JS.ToNumber denom)).

Definition convertDMSToDecimal (dmsArray : value) : result number :=
  if negb (JS.isArray dmsArray) || negb (JS.length dmsArray =? 3)
  then mret (Num.ofZ 0)
  else
    degrees ← safeDivide (JS.index dmsArray 0);
    minutes ← safeDivide (JS.index dmsArray 1);
    seconds ← safeDivide (JS.index dmsArray 2);
    mret (Num.add (Num.add degrees (Num.div minutes (Num.ofZ 60)))
                  (Num.div seconds (Num.ofZ 3600))).

Definition processLocationCoordinates (rawData : dict) : result (option LocationCoordinates) :=
  if negb (JS.truthy (JS.field rawData "GPSLatitude"))
     || negb (JS.truthy (JS.field rawData "GPSLongitude"))
  then mret None
  else
    let latArray := JS.get (JS.field rawData "GPSLatitude") "value" in
    let lonArray := JS.get (JS.field rawData "GPSLongitude") "value" in
    let latRefRaw :=
      JS.or (JS.or (JS.getOpt (JS.field rawData "GPSLatitudeRef") "description")
                   (JS.getOpt (JS.field rawData "GPSLatitudeRef") "value"))
            (VStr EmptyString) in
    let lonRefRaw :=
      JS.or (JS.or (JS.getOpt (JS.field rawData "GPSLongitudeRef") "description")
                   (JS.getOpt (JS.field rawData "GPSLongitudeRef") "value"))
            (VStr EmptyString) in
    latRefString ← JS.toString latRefRaw;
    let normalizedLatRef := Str.toUpperCase (Str.trim latRefString) in
    lonRefString ← JS.toString lonRefRaw;
    let normalizedLonRef := Str.toUpperCase (Str.trim lonRefString) in
    if negb (JS.isArray latArray) || negb (JS.isArray lonArray)
    then mret None
    else
      latitude ← convertDMSToDecimal latArray;
      longitude ← convertDMSToDecimal lonArray;
      let latitude :=
        if String.eqb normalizedLatRef "S" then Num.neg (Num.abs latitude)
        else latitude in
      let longitude :=
        if Str.startsWith normalizedLonRef "W" then Num.neg (Num.abs longitude)
        else if Str.isEmpty normalizedLonRef
                && Num.gtb longitude (Num.ofZ 0)
                && Num.ltb longitude (Num.ofZ 180)
        then Num.neg (Num.abs longitude)
        else longitude in
      let latDir := if Num.geb latitude (Num.ofZ 0) then "N" else "S" in
      let lonDir := if Num.geb longitude (Num.ofZ 0) then "E" else "W" in
      mret (Some
        {| latitude := Conv.parseFloat (Conv.toFixed 6 latitude);
           longitude := Conv.parseFloat (Conv.toFixed 6 longitude);
           formatted :=
             Conv.toFixed 6 (Num.abs latitude) +:+ "° " +:+ latDir +:+ ", " +:+
             Conv.toFixed 6 (Num.abs longitude) +:+ "° " +:+ lonDir;
           mapsUrl :=
             "https://maps.google.com/?q=" +:+ Conv.toString latitude +:+ "," +:+
             Conv.toString longitude |}).

(** The first pass of [cleanMetadata]: the [reduce] that drops binary
    data. *)
Definition filteredData (rawData : dict) : dict :=
  map_fold (fun key v (acc : dict) =>
              if negb (String.eqb key "base64")
                 && (negb (JS.typeofObject v)
                     || (JS.typeofObject v && negb (JS.isNull v)
                         && negb (JS.isView v)))
              then <[key := v]> acc
              else acc)
           ∅ rawData.

(** The second pass of [cleanMetadata]: the [forEach] that fills
    [cleaned]. *)
Definition cleanedEntries (filteredData : dict) : dict :=
  map_fold (fun key v (cleaned : dict) =>
              if JS.truthy v && JS.typeofObject v && JS.has "description" v
              then <[key := JS.get v "description"]> cleaned
              else if JS.truthy v && JS.typeofObject v && JS.has "value" v
              then <[key := JS.get v "value"]> cleaned
              else <[key := v]> cleaned)
           ∅ filteredData.

Definition cleanMetadata (rawData : dict) : result dict :=
  let filteredData := filteredData rawData in
  let cleaned := cleanedEntries filteredData in
  locationCoordinates ← processLocationCoordinates rawData;
  mret (match locationCoordinates with
        | Some c =>
            <["GPSCoordinates" := coordinatesValue c]>
              (<["GPSLongitude" := VNum (longitude c)]>
                 (<["GPSLatitude" := VNum (latitude c)]> cleaned))
        | None => cleaned
        end).

Record Parsed : Type := { rawData : dict; cleanedData : dict }.

(** The [reduce] of [parseMetadata] that prepares the raw form. *)
Definition rawDataForDisplay (tags : dict) : dict :=
  map_fold (fun key v (acc : dict) =>
              if negb (String.eqb key "base64") then <[key := v]> acc else acc)
           ∅ tags.

(** [parseMetadata] from the decoder's tag dictionary on; reading the
    file and decoding it happen before and are the decoder's. *)
Definition parseMetadata (tags : dict) : result Parsed :=
  let rawDataForDisplay := rawDataForDisplay tags in
  cleanedData ← cleanMetadata tags;
  mret {| rawData := rawDataForDisplay; cleanedData := cleanedData |}.

End MetadataService.

Import MetadataService.

(** ** The steps of the service, by name

    The blocks of [processLocationCoordinates] and the conditions of
    [cleanMetadata], named so that the properties can speak of them; the
    lemmas that follow tie each of them to the code. *)

(** [rawData.K?.description || rawData.K?.value || ''] *)
Definition refRaw (rawData : dict) (k : string) : value :=
  JS.or (JS.or (JS.getOpt (JS.field rawData k) "description")
               (JS.getOpt (JS.field rawData k) "value"))
        (VStr EmptyString).

(** [refRaw.toString().trim().toUpperCase()] *)
Definition normalizeRef (refRaw : value) : result string :=
  s ← JS.toString refRaw;
  mret (Str.toUpperCase (Str.trim s)).

(** The hemisphere corrections: the two [if] statements on the
    normalized references. *)
Definition correctLatitude (normalizedLatRef : string) (latitude : number) : number :=
  if String.eqb normalizedLatRef "S" then Num.neg (Num.abs latitude)
  else latitude.

Definition correctLongitude (normalizedLonRef : string) (longitude : number) : number :=
  if Str.startsWith normalizedLonRef "W" then Num.neg (Num.abs longitude)
  else if Str.isEmpty normalizedLonRef
          && Num.gtb longitude (Num.ofZ 0)
          && Num.ltb longitude (Num.ofZ 180)
  then Num.neg (Num.abs longitude)
  else longitude.

(** The object the resolver returns for the corrected decimals. *)
Definition buildCoordinates (latitude longitude : number) : LocationCoordinates :=
  let latDir := if Num.geb latitude (Num.ofZ 0) then "N" else "S" in
  let lonDir := if Num.geb longitude (Num.ofZ 0) then "E" else "W" in
  {| latitude := Conv.parseFloat (Conv.toFixed 6 latitude);
     longitude := Conv.parseFloat (Conv.toFixed 6 longitude);
     formatted :=
       Conv.toFixed 6 (Num.abs latitude) +:+ "° " +:+ latDir +:+ ", " +:+
       Conv.toFixed 6 (Num.abs longitude) +:+ "° " +:+ lonDir;
     mapsUrl :=
       "https://maps.google.com/?q=" +:+ Conv.toString latitude +:+ "," +:+
       Conv.toString longitude |}.

(** The resolver up to and including the hemisphere corrections: the
    corrected decimals, or [None] where the resolver returns [null]. *)
Definition resolveDecimals (rawData : dict) : result (option (number * number)) :=
  if negb (JS.truthy (JS.field rawData "GPSLatitude"))
     || negb (JS.truthy (JS.field rawData "GPSLongitude"))
  then mret None
  else
    let latArray := JS.get (JS.field rawData "GPSLatitude") "value" in
    let lonArray := JS.get (JS.field rawData "GPSLongitude") "value" in
    normalizedLatRef ← normalizeRef (refRaw rawData "GPSLatitudeRef");
    normalizedLonRef ← normalizeRef (refRaw rawData "GPSLongitudeRef");
    if negb (JS.isArray latArray) || negb (JS.isArray lonArray)
    then mret None
    else
      latitude ← convertDMSToDecimal latArray;
      longitude ← convertDMSToDecimal lonArray;
      mret (Some (correctLatitude normalizedLatRef latitude,
                  correctLongitude normalizedLonRef longitude)).

(** The condition under which the first pass of [cleanMetadata] keeps
    an entry. *)
Definition retained (key : string) (v : value) : bool :=
  negb (String.eqb key "base64")
  && (negb (JS.typeofObject v)
      || (JS.typeofObject v && negb (JS.isNull v) && negb (JS.isView v))).

(** The value the second pass of [cleanMetadata] stores for an entry. *)
Definition unwrap (v : value) : value :=
  if JS.truthy v && JS.typeofObject v && JS.has "description" v
  then JS.get v "description"
  else if JS.truthy v && JS.typeofObject v && JS.has "value" v
  then JS.get v "value"
  else v.

(** The reference after [toString().trim().toUpperCase()]. *)
Definition normalizedRef (d : dict) (k : string) : string :=
  Str.toUpperCase (Str.trim (JS.ToString (refRaw d k))).

(** Both GPS tags are truthy and both value fields are arrays. *)
Definition hasDMS (d : dict) : bool :=
  JS.truthy (JS.field d "GPSLatitude")
  && JS.truthy (JS.field d "GPSLongitude")
  && JS.isArray (JS.get (JS.field d "GPSLatitude") "value")
  && JS.isArray (JS.get (JS.field d "GPSLongitude") "value").


(** [x.toFixed(6)] read back as a number: the rounding of the two
    coordinate fields. *)
Definition round6 (x : number) : number := Conv.parseFloat (Conv.toFixed 6 x).

(** The three keys the resolver's result is stored under. *)
Definition gpsKey (k : string) : Prop :=
  k = "GPSLatitude" \/ k = "GPSLongitude" \/ k = "GPSCoordinates".


(** ** The specification, in its own words

    What the specification says of the formatted string, the map link and
    the display mapping, to be set against what the code computes. *)

#[local] Infix "⊕" := Num.add (at level 50, left associativity).
#[local] Infix "⊘" := Num.div (at level 40, left associativity).

(** The quotient of a fraction pair [[n, d]] in the words of the
    specification: [n / d], and [0] when [d] is [0]. *)
Definition quotient (n d : number) : number :=
  if Num.eqb d (Num.ofZ 0) then Num.ofZ 0 else n ⊘ d.

(** The formatted string in the words of the specification: magnitudes and
    direction letters taken from the rounded fields of the coordinate. *)
Definition formattedOfFields (c : LocationCoordinates) : string :=
  Conv.toFixed 6 (Num.abs (latitude c)) +:+ "° "
  +:+ (if Num.geb (latitude c) (Num.ofZ 0) then "N" else "S") +:+ ", "
  +:+ Conv.toFixed 6 (Num.abs (longitude c)) +:+ "° "
  +:+ (if Num.geb (longitude c) (Num.ofZ 0) then "E" else "W").

(** The map link in the words of the specification: built from the
    [latitude] and [longitude] fields of the coordinate. *)
Definition mapsUrlOfFields (c : LocationCoordinates) : string :=
  "https://maps.google.com/?q=" +:+ Conv.toString (latitude c) +:+ ","
  +:+ Conv.toString (longitude c).



(** ** Test data *)

Module Sample.

(** The fraction pair [[n, d]]. *)
Definition frac (n d : Z) : value := VArr [VNum (Num.ofZ n); VNum (Num.ofZ d)].

(** Degrees, minutes and seconds, each a fraction pair. *)
Definition dms (dn dd mn md sn sd : Z) : value :=
  VArr [frac dn dd; frac mn md; frac sn sd].

(** A tag envelope with the single field [k]. *)
Definition envelope (k : string) (v : value) : value := VObj {[ k := v ]}.

Definition gps (lat : value) (latRef : string) (lon : value) (lonRef : string) : dict :=
  <["GPSLatitude" := envelope "value" lat]>
    (<["GPSLatitudeRef" := envelope "description" (VStr latRef)]>
       (<["GPSLongitude" := envelope "value" lon]>
          (<["GPSLongitudeRef" := envelope "description" (VStr lonRef)]> ∅))).

(** 40 degrees 30 minutes north, 74 degrees west. *)
Definition newYork : dict := gps (dms 40 1 30 1 0 1) "N" (dms 74 1 0 1 0 1) "W".

(** The same place one second of arc further north. *)
Definition newYork1 : dict := gps (dms 40 1 30 1 1 1) "N" (dms 74 1 0 1 0 1) "W".

(** A thousandth of a second of arc south of the equator. *)
Definition equator : dict := gps (dms 0 1 0 1 1 1000) "S" (dms 74 1 0 1 0 1) "W".

(** GPS tags whose value arrays hold three plain numbers. *)
Definition plainNumbers : dict :=
  let three := VArr [VNum (Num.ofZ 40); VNum (Num.ofZ 30); VNum (Num.ofZ 0)] in
  <["GPSLatitude" := envelope "value" three]>
    (<["GPSLongitude" := envelope "value" three]> ∅).

Definition minusTenAndAHalf : number := Num.div (Num.ofZ (-21)) (Num.ofZ 2).

End Sample.

(** ** The display of the cleaned data

    [DataDisplay] sorts the fields of the cleaned dictionary into
    categories by words of their lower-cased key, picks an icon for each
    field and chooses how to render its value; [LocationDisplay] renders a
    coordinate object. What is modelled is what these components compute:
    the category, the icon, the groups, the kind of block and the strings
    put into it. *)

Module Text.

Definition lowerChar (c : ascii) : ascii :=
  let n := N_of_ascii c in
  if ((65 <=? n) && (n <=? 90))%N then ascii_of_N (n + 32) else c.

Fixpoint toLowerCase (s : string) : string :=
  match s with
  | String c r => String (lowerChar c) (toLowerCase r)
  | EmptyString => EmptyString
  end.

(** [s.includes(sub)] *)
Fixpoint includes (s sub : string) : bool :=
  String.prefix sub s
  || match s with
     | String _ r => includes r sub
     | EmptyString => false
     end.

End Text.

Module DataDisplay.

Inductive Icon : Type := Copyright | Hash | MapPin | Calendar | Camera | Settings.

(** An icon element with its [className]. *)
Record IconElement : Type := { icon : Icon; className : string }.

Record CategoryConfig : Type := { label : string; configIcon : Icon; color : string }.

Definition getCategoryForField (key : string) : string :=
  let lowerKey := Text.toLowerCase key in
  if Text.includes lowerKey "copyright" || Text.includes lowerKey "artist"
     || Text.includes lowerKey "author" || Text.includes lowerKey "creator"
     || Text.includes lowerKey "rights"
  then "copyright"
  else if Text.includes lowerKey "serial" || Text.includes lowerKey "body"
          || Text.includes lowerKey "lens"
             && (Text.includes lowerKey "serial" || Text.includes lowerKey "number")
  then "serial"
  else if Text.includes lowerKey "gps" || Text.includes lowerKey "location"
  then "location"
  else if Text.includes lowerKey "date" || Text.includes lowerKey "time"
  then "datetime"
  else if Text.includes lowerKey "camera" || Text.includes lowerKey "make"
          || Text.includes lowerKey "model" || Text.includes lowerKey "lens"
          || Text.includes lowerKey "focal"
  then "camera"
  else if Text.includes lowerKey "iso" || Text.includes lowerKey "aperture"
          || Text.includes lowerKey "exposure" || Text.includes lowerKey "shutter"
          || Text.includes lowerKey "flash" || Text.includes lowerKey "white"
  then "settings"
  else "other".

(** One step of the [reduce] that builds [groupedData]: the group of the
    field's category is created when it is missing, and the field is
    pushed onto it. *)
Definition groupStep (acc : gmap string (list (string * value)))
    (entry : string * value) : gmap string (list (string * value)) :=
  let '(key, v) := entry in
  let category := getCategoryForField key in
  let acc := match acc !! category with
             | None => <[category := []]> acc
             | Some _ => acc
             end in
  <[category := (default [] (acc !! category) ++ [(key, v)])%list]> acc.

(** [groupedData], from the entries of the cleaned dictionary in the order
    [Object.entries] gives them. *)
Definition groupedData (entries : list (string * value)) : gmap string (list (string * value)) :=
  fold_left groupStep entries ∅.

Definition categoryConfig : gmap string CategoryConfig :=
  <["copyright" := {| label := "Copyright & Rights"; configIcon := Copyright; color := "red" |}]>
  (<["serial" := {| label := "Serial Numbers"; configIcon := Hash; color := "indigo" |}]>
  (<["location" := {| label := "Location & GPS"; configIcon := MapPin; color := "blue" |}]>
  (<["datetime" := {| label := "Date & Time"; configIcon := Calendar; color := "green" |}]>
  (<["camera" := {| label := "Camera & Lens"; configIcon := Camera; color := "purple" |}]>
  (<["settings" := {| label := "Camera Settings"; configIcon := Settings; color := "orange" |}]>
  (<["other" := {| label := "Other Metadata"; configIcon := Settings; color := "gray" |}]>
   ∅)))))).

Definition getIconForField (key : string) : IconElement :=
  let lowerKey := Text.toLowerCase key in
  if Text.includes lowerKey "copyright" || Text.includes lowerKey "artist"
     || Text.includes lowerKey "author" || Text.includes lowerKey "creator"
     || Text.includes lowerKey "rights"
  then {| icon := Copyright; className := "w-4 h-4 text-red-500" |}
  else if Text.includes lowerKey "serial"
          || (Text.includes lowerKey "body" && Text.includes lowerKey "serial")
          || (Text.includes lowerKey "lens" && Text.includes lowerKey "serial")
  then {| icon := Hash; className := "w-4 h-4 text-indigo-500" |}
  else if Text.includes lowerKey "gps" || Text.includes lowerKey "location"
  then {| icon := MapPin; className := "w-4 h-4 text-blue-500" |}
  else if Text.includes lowerKey "date" || Text.includes lowerKey "time"
  then {| icon := Calendar; className := "w-4 h-4 text-green-500" |}
  else if Text.includes lowerKey "camera" || Text.includes lowerKey "make"
          || Text.includes lowerKey "model"
  then {| icon := Camera; className := "w-4 h-4 text-purple-500" |}
  else {| icon := Settings; className := "w-4 h-4 text-gray-500" |}.

(** What [renderValue] returns: the element chosen and the value or
    string put into it. [JSON.stringify] is left unapplied. *)
Inductive Rendered : Type :=
| LocationBlock (coordinates : value)
| CopyrightBlock (text : string)
| SerialBlock (text : string)
| JsonBlock (v : value)
| TextSpan (text : string).

Definition renderValue (key : string) (v : value) : Rendered :=
  if String.eqb key "GPSCoordinates" && JS.typeofObject v
  then LocationBlock v
  else
    let lowerKey := Text.toLowerCase key in
    if Text.includes lowerKey "copyright" || Text.includes lowerKey "artist"
       || Text.includes lowerKey "author" || Text.includes lowerKey "creator"
       || Text.includes lowerKey "rights"
    then CopyrightBlock (JS.ToString v)
    else if Text.includes lowerKey "serial"
            || (Text.includes lowerKey "body" && Text.includes lowerKey "serial")
            || (Text.includes lowerKey "lens" && Text.includes lowerKey "serial")
    then SerialBlock (JS.ToString v)
    else if JS.typeofObject v
    then JsonBlock v
    else TextSpan (JS.ToString v).

End DataDisplay.

Module LocationDisplay.

(** What the component puts on the page for its [coordinates]: the three
    values given to the text nodes, the link target and the address of
    the embedded map. *)
Record View : Type := {
  formattedText : value;
  latitudeText : value;
  longitudeText : value;
  href : value;
  src : string
}.

(** [coordinates.k]: reading a property of [undefined] or [null]
    throws. *)
Definition read (coordinates : value) (k : string) : result value :=
  match coordinates with
  | VUndefined | VNull => Throw TypeError
  | _ => Ok (JS.get coordinates k)
  end.

Definition LocationDisplay (coordinates : value) : result View :=
  formattedText ← read coordinates "formatted";
  latitudeText ← read coordinates "latitude";
  longitudeText ← read coordinates "longitude";
  href ← read coordinates "mapsUrl";
  lat ← read coordinates "latitude";
  lon ← read coordinates "longitude";
  mret {| formattedText := formattedText;
          latitudeText := latitudeText;
          longitudeText := longitudeText;
          href := href;
          src := "https://www.google.com/maps?q=" +:+ JS.ToString lat +:+ ","
                 +:+ JS.ToString lon +:+ "&z=15&output=embed" |}.

End LocationDisplay.

(** ** The application state

    [App] keeps seven state variables; each handler is a sequence of
    setter calls with constant arguments, so that a handler is a function
    on the state. [handleFileUpload] is two such steps, one before and one
    after the [await]. *)

Module App.

Record State : Type := {
  metadataData : option dict;
  cleanedData : option dict;
  fileName : string;
  imageUrl : string;
  isLoading : bool;
  error : string;
  showUploader : bool
}.

Definition initial : State :=
  {| metadataData := None; cleanedData := None; fileName := EmptyString;
     imageUrl := EmptyString; isLoading := false; error := EmptyString;
     showUploader := true |}.

Definition failureMessage : string :=
  "Failed to parse metadata. Please ensure the file is a valid image with metadata.".

(** [handleFileUpload] up to the [await], for the chosen file's name and
    the object URL made for it; without a file nothing changes. *)
Definition uploadStarted (file : option (string * string)) (s : State) : State :=
  match file with
  | None => s
  | Some (name, url) =>
      {| metadataData := metadataData s; cleanedData := cleanedData s;
         fileName := name; imageUrl := url; isLoading := true;
         error := EmptyString; showUploader := showUploader s |}
  end.

(** [handleFileUpload] after the [await]: [try], [catch] and [finally].
    [outcome] is what [parseMetadata] resolved to, or [None] when it
    rejected. *)
Definition uploadSettled (outcome : option MetadataService.Parsed) (s : State) : State :=
  match outcome with
  | Some parsed =>
      {| metadataData := Some (MetadataService.rawData parsed);
         cleanedData := Some (MetadataService.cleanedData parsed);
         fileName := fileName s; imageUrl := imageUrl s; isLoading := false;
         error := error s; showUploader := false |}
  | None =>
      {| metadataData := metadataData s; cleanedData := cleanedData s;
         fileName := fileName s; imageUrl := imageUrl s; isLoading := false;
         error := failureMessage; showUploader := showUploader s |}
  end.

(** What the [await] of [parseMetadata] gives for the decoder's result:
    [decoded] is [None] when reading or decoding the file threw. *)
Definition awaitParse (decoded : option dict) : option MetadataService.Parsed :=
  match decoded with
  | None => None
  | Some tags =>
      match MetadataService.parseMetadata tags with
      | Ok parsed => Some parsed
      | Throw _ => None
      end
  end.

Definition clearData (s : State) : State :=
  {| metadataData := None; cleanedData := None; fileName := EmptyString;
     imageUrl := EmptyString; isLoading := isLoading s; error := EmptyString;
     showUploader := true |}.

Definition handleShowUploader (s : State) : State :=
  {| metadataData := metadataData s; cleanedData := cleanedData s;
     fileName := fileName s; imageUrl := imageUrl s; isLoading := isLoading s;
     error := error s; showUploader := true |}.

(** [metadataData && cleanedData] and [imageUrl && fileName], as
    booleans. *)
Definition hasData (s : State) : bool :=
  match metadataData s, cleanedData s with
  | Some _, Some _ => true
  | _, _ => false
  end.

Definition hasImage (s : State) : bool :=
  negb (Str.isEmpty (imageUrl s)) && negb (Str.isEmpty (fileName s)).

(** What can happen to the state. *)
Inductive Event : Type :=
| FileChosen (file : option (string * string))
| ParseSettled (decoded : option dict)
| ClearClicked
| UploadNewClicked.

Definition step (s : State) (e : Event) : State :=
  match e with
  | FileChosen file => uploadStarted file s
  | ParseSettled decoded => uploadSettled (awaitParse decoded) s
  | ClearClicked => clearData s
  | UploadNewClicked => handleShowUploader s
  end.

Definition run (events : list Event) : State := fold_left step events initial.

End App.

(** ** Notions used by the further properties *)



(** A number that is not above zero: a zero, a negative number or
    [NaN]. *)
Definition notPositive (x : number) : Prop := Num.gtb x (Num.ofZ 0) = false.


(** The fields of the category [c] among [entries], in their order. *)
Definition fieldsOf (c : string) (entries : list (string * value)) : list (string * value) :=
  filter (fun entry => DataDisplay.getCategoryForField entry.1 = c) entries.

(** What every state keeps: the upload area or the data is there; the
    error message is empty while a file is loading; the raw and the
    cleaned data are stored together, and are what [parseMetadata]
    returned for some tag dictionary. *)
Definition kept (s : App.State) : Prop :=
  (App.showUploader s = true \/ App.hasData s = true)
  /\ (App.isLoading s = true -> App.error s = EmptyString)
  /\ match App.metadataData s, App.cleanedData s with
     | Some raw, Some cleaned =>
         exists tags parsed,
           parseMetadata tags = Ok parsed
           /\ rawData parsed = raw /\ cleanedData parsed = cleaned
     | None, None => True
     | _, _ => False
     end.

(** * Properties *)


(** ** The conversions at work *)

Example toString_samples :
  List.map Conv.toString
    [Num.div (Num.ofZ 81) (Num.ofZ 2); Num.ofZ (-74); Num.ofZ 0; S754_zero true;
     Num.div (Num.ofZ 1) (Num.ofZ 10); Num.div (Num.ofZ 1) (Num.ofZ 3);
     Num.div (Num.ofZ 1) (Num.ofZ 1000000); Num.div (Num.ofZ 1) (Num.ofZ 10000000);
     Num.ofZ (10 ^ 20); Num.ofZ (10 ^ 21); Num.ofZ (2 ^ 53 + 1);
     Num.div (Num.ofZ 1) (Num.ofZ 0); Num.div (Num.ofZ 0) (Num.ofZ 0)]
  = ["40.5"; "-74"; "0"; "0";
     "0.1"; "0.3333333333333333";
     "0.000001"; "1e-7";
     "100000000000000000000"; "1e+21"; "9007199254740992";
     "Infinity"; "NaN"].
Proof. vm_compute. reflexivity. Qed.

(** [toFixed] rounds the exact value of the number, a tie upwards in
    magnitude: 1/128 is 0.0078125 exactly, the numbers nearest to
    1.0000005 and to 8.345 lie above them, the one nearest to 1.005
    below. *)
Example toFixed_samples :
  List.map (Conv.toFixed 6)
    [Num.div (Num.ofZ 81) (Num.ofZ 2); Num.ofZ (-74); S754_zero true;
     Num.div (Num.ofZ 1) (Num.ofZ 128); Num.div (Num.ofZ (-1)) (Num.ofZ 10000000);
     Num.div (Num.ofZ 10000005) (Num.ofZ 10000000);
     Num.ofZ (10 ^ 21); Num.div (Num.ofZ 0) (Num.ofZ 0)]
  = ["40.500000"; "-74.000000"; "0.000000";
     "0.007813"; "-0.000000";
     "1.000001";
     "1e+21"; "NaN"]
  /\ Conv.toFixed 2 (Num.div (Num.ofZ 8345) (Num.ofZ 1000)) = "8.35"
  /\ Conv.toFixed 2 (Num.div (Num.ofZ 1005) (Num.ofZ 1000)) = "1.00".
Proof. repeat split; vm_compute; reflexivity. Qed.

Example parseFloat_samples :
  List.map Conv.parseFloat
    ["40.500000"; "-74.000000"; "-0.000000"; "  1e+21"; "0.5e1xyz"; ".5";
     "Infinity"; "-"; "metres"]
  = [Num.div (Num.ofZ 81) (Num.ofZ 2); Num.ofZ (-74); S754_zero true;
     Num.ofZ (10 ^ 21); Num.ofZ 5; Num.div (Num.ofZ 1) (Num.ofZ 2);
     Num.Infinity; Num.NaN; Num.NaN].
Proof. vm_compute. reflexivity. Qed.

Example stringToNumber_samples :
  List.map Conv.stringToNumber
    [EmptyString; "  12  "; "0x1f"; "0b101"; "1e"; "12px"; "-Infinity"; "5."]
  = [Num.ofZ 0; Num.ofZ 12; Num.ofZ 31; Num.ofZ 5; Num.NaN; Num.NaN;
     S754_infinity true; Num.ofZ 5].
Proof. vm_compute. reflexivity. Qed.

(** Reading back what [toString] printed gives the number again. *)
Example toString_parseFloat_samples :
  List.Forall (fun x => Conv.parseFloat (Conv.toString x) = x)
    [Num.div (Num.ofZ 81) (Num.ofZ 2);
     Num.div (Num.ofZ 1) (Num.ofZ 3);
     Num.div (Num.ofZ 1458010) (Num.ofZ 36000);
     Num.div (Num.ofZ 1) (Num.ofZ 3600000);
     Num.ofZ (2 ^ 80 + 12345)].
Proof. repeat constructor; vm_compute; reflexivity. Qed.

(** The scenario of the specification: 40 degrees 30 minutes north,
    74 degrees west. *)
Example newYork_resolved :
  processLocationCoordinates Sample.newYork =
  Ok (Some {| latitude := Num.div (Num.ofZ 81) (Num.ofZ 2);
              longitude := Num.ofZ (-74);
              formatted := "40.500000° N, 74.000000° W";
              mapsUrl := "https://maps.google.com/?q=40.5,-74" |}).
Proof. vm_compute. reflexivity. Qed.

(** ** The two passes of [cleanMetadata] and the raw form, entry by entry *)

Section Folds.

Implicit Types (d : dict) (k : string) (v : value).

Lemma lookup_filteredData d k :
  filteredData d !! k =
  match d !! k with
  | Some v => if retained k v then Some v else None
  | None => None
  end.
Proof.
  change (filteredData d) with
    (map_fold (fun key v (acc : dict) =>
                 if retained key v then <[key := v]> acc else acc) ∅ d).
  apply (map_fold_weak_ind (fun (acc m : dict) =>
    acc !! k = match m !! k with
               | Some v => if retained k v then Some v else None
               | None => None
               end)).
  - by rewrite lookup_empty.
  - intros i x m r Hi IH. destruct (decide (i = k)) as [->|Hne].
    + rewrite lookup_insert_eq. rewrite Hi in IH.
      destruct (retained k x); [by rewrite lookup_insert_eq | done].
    + rewrite (lookup_insert_ne m) by done.
      destruct (retained i x); [by rewrite lookup_insert_ne | done].
Qed.

(** Each branch of the second pass stores the unwrapped value. *)
Lemma store_unwrap k v (cleaned : dict) :
  (if JS.truthy v && JS.typeofObject v && JS.has "description" v
   then <[k := JS.get v "description"]> cleaned
   else if JS.truthy v && JS.typeofObject v && JS.has "value" v
   then <[k := JS.get v "value"]> cleaned
   else <[k := v]> cleaned)
  = <[k := unwrap v]> cleaned.
Proof.
  unfold unwrap.
  destruct (JS.truthy v && JS.typeofObject v && JS.has "description" v); [done|].
  by destruct (JS.truthy v && JS.typeofObject v && JS.has "value" v).
Qed.

Lemma lookup_cleanedEntries d k : cleanedEntries d !! k = unwrap <$> d !! k.
Proof.
  unfold cleanedEntries.
  apply (map_fold_weak_ind (fun (acc m : dict) => acc !! k = unwrap <$> m !! k)).
  - by rewrite !lookup_empty.
  - intros i x m r Hi IH. rewrite store_unwrap.
    destruct (decide (i = k)) as [->|Hne].
    + by rewrite !lookup_insert_eq.
    + by rewrite !lookup_insert_ne.
Qed.


(** What the two passes leave under a key. *)
Lemma lookup_cleaned d k :
  cleanedEntries (filteredData d) !! k =
  match d !! k with
  | Some v => if retained k v then Some (unwrap v) else None
  | None => None
  end.
Proof.
  rewrite lookup_cleanedEntries, lookup_filteredData.
  destruct (d !! k) as [v|]; [|done]. by destruct (retained k v).
Qed.

Lemma retained_base64 v : retained "base64" v = false.
Proof. done. Qed.


End Folds.

(** ** The resolver, case by case *)

Section Resolver.

Implicit Types (d : dict) (k : string) (v : value).

Lemma toString_truthy v : JS.truthy v = true -> JS.toString v = Ok (JS.ToString v).
Proof. by destruct v. Qed.

(** The reference read from the dictionary is a truthy value or the
    empty string, so that calling [toString] on it returns. *)
Lemma toString_refRaw d k : JS.toString (refRaw d k) = Ok (JS.ToString (refRaw d k)).
Proof.
  unfold refRaw, JS.or.
  destruct (JS.truthy (if JS.truthy _ then _ else _)) eqn:E; [|done].
  by apply toString_truthy.
Qed.

(** The resolver is its first part followed by the construction of the
    object. *)
Lemma processLocationCoordinates_eq (rawData : dict) :
  processLocationCoordinates rawData =
  decimals ← resolveDecimals rawData;
  mret (match decimals with
        | Some (latitude, longitude) => Some (buildCoordinates latitude longitude)
        | None => None
        end).
Proof.
  unfold processLocationCoordinates, resolveDecimals, normalizeRef.
  fold (refRaw rawData "GPSLatitudeRef") (refRaw rawData "GPSLongitudeRef").
  rewrite !toString_refRaw.
  destruct (negb (JS.truthy (JS.field rawData "GPSLatitude"))
            || negb (JS.truthy (JS.field rawData "GPSLongitude")));
    [reflexivity|].
  cbn [mbind mret result_bind result_ret].
  destruct (negb (JS.isArray _) || negb (JS.isArray _)); [reflexivity|].
  destruct (convertDMSToDecimal (JS.get (JS.field rawData "GPSLatitude") "value"))
    as [lat|]; [|reflexivity].
  destruct (convertDMSToDecimal (JS.get (JS.field rawData "GPSLongitude") "value"))
    as [lon|]; reflexivity.
Qed.

Lemma normalizeRef_refRaw d k : normalizeRef (refRaw d k) = Ok (normalizedRef d k).
Proof. unfold normalizeRef. by rewrite toString_refRaw. Qed.

Lemma resolveDecimals_eq d :
  resolveDecimals d =
  if hasDMS d then
    latitude ← convertDMSToDecimal (JS.get (JS.field d "GPSLatitude") "value");
    longitude ← convertDMSToDecimal (JS.get (JS.field d "GPSLongitude") "value");
    mret (Some (correctLatitude (normalizedRef d "GPSLatitudeRef") latitude,
                correctLongitude (normalizedRef d "GPSLongitudeRef") longitude))
  else mret None.
Proof.
  unfold resolveDecimals, hasDMS. rewrite !normalizeRef_refRaw.
  destruct (JS.truthy (JS.field d "GPSLatitude")); [|done].
  destruct (JS.truthy (JS.field d "GPSLongitude")); [|done].
  simpl.
  destruct (JS.isArray (JS.get (JS.field d "GPSLatitude") "value")); [|done].
  by destruct (JS.isArray (JS.get (JS.field d "GPSLongitude") "value")).
Qed.



(** A resolved coordinate is built from the corrected decimals. *)
Lemma processLocationCoordinates_Some d c :
  processLocationCoordinates d = Ok (Some c) <->
  exists lat lon, resolveDecimals d = Ok (Some (lat, lon))
                  /\ c = buildCoordinates lat lon.
Proof.
  rewrite processLocationCoordinates_eq.
  destruct (resolveDecimals d) as [[[lat lon]|]|]; simpl; split.
  - intros [= <-]. by exists lat, lon.
  - by intros (? & ? & [= <- <-] & ->).
  - done.
  - by intros (? & ? & ? & _).
  - done.
  - by intros (? & ? & ? & _).
Qed.

Lemma cleanMetadata_None d :
  processLocationCoordinates d = Ok None ->
  cleanMetadata d = Ok (cleanedEntries (filteredData d)).
Proof. unfold cleanMetadata. by intros ->. Qed.

Lemma cleanMetadata_Some d c :
  processLocationCoordinates d = Ok (Some c) ->
  cleanMetadata d =
  Ok (<["GPSCoordinates" := coordinatesValue c]>
        (<["GPSLongitude" := VNum (longitude c)]>
           (<["GPSLatitude" := VNum (latitude c)]> (cleanedEntries (filteredData d))))).
Proof. unfold cleanMetadata. by intros ->. Qed.

(** [cleanMetadata] throws exactly when the resolver does. *)
Lemma cleanMetadata_returns d :
  returns (cleanMetadata d) <-> returns (processLocationCoordinates d).
Proof.
  unfold cleanMetadata, returns.
  destruct (processLocationCoordinates d) as [o|e]; split.
  - by exists o.
  - by eexists.
  - by intros [? ?].
  - by intros [? ?].
Qed.

End Resolver.

(** ** When the service throws *)



(** An argument that is not an array of exactly three elements is
    converted to [0]. *)
Lemma convertDMSToDecimal_shape (v : value) :
  JS.isArray v = false \/ JS.length v <> 3 ->
  convertDMSToDecimal v = Ok (Num.ofZ 0).
Proof.
  intros [Harr | Hlen]; unfold convertDMSToDecimal.
  - by rewrite Harr.
  - destruct (JS.length v =? 3) eqn:E; [by apply Z.eqb_eq in E|].
    by rewrite orb_true_r.
Qed.




(** ** Envelope unwrapping *)


(** ** Number facts the claims rest on *)

Section Numbers.

Implicit Types (x : number).

Lemma positive_not_zero x : Num.gtb x (Num.ofZ 0) = true -> Num.eqb x (Num.ofZ 0) = false.
Proof. by destruct x as [[]|[]| |[] m e]. Qed.


(** [-|x|] is never above zero. *)
Lemma neg_abs_not_positive x : Num.gtb (Num.neg (Num.abs x)) (Num.ofZ 0) = false.
Proof. by destruct x as [[]|[]| |[] m e]. Qed.

End Numbers.

(** ** Claims *)

(** C1 (the code departs from the claim). The claim has [cleanMetadata]
    return normally on every tag dictionary, GPS value arrays of three
    plain numbers included. On exactly such a dictionary the array pattern
    of [safeDivide] meets a number, which has no iterator, and
    [cleanMetadata] throws a [TypeError]. *)
Theorem cleanMetadata_throws_on_plain_numbers :
  convertDMSToDecimal
    (VArr [VNum (Num.ofZ 40); VNum (Num.ofZ 30); VNum (Num.ofZ 0)]) = Throw TypeError
  /\ processLocationCoordinates Sample.plainNumbers = Throw TypeError
  /\ cleanMetadata Sample.plainNumbers = Throw TypeError.
Proof. repeat split; vm_compute; reflexivity. Qed.

(** C2. [convertDMSToDecimal] returns [0] for an argument that is not an
    array of exactly three elements. For three fraction pairs it returns
    [degrees + minutes / 60 + seconds / 3600], each component being the
    pair's quotient, or [0] under a zero denominator; with positive
    denominators that is
    [dn / dd + (mn / md) / 60 + (sn / sd) / 3600]. The arithmetic is that
    of the code's numbers. *)
Theorem convertDMSToDecimal_spec :
  (forall v : value,
      JS.isArray v = false \/ JS.length v <> 3 ->
      convertDMSToDecimal v = Ok (Num.ofZ 0))
  /\ (forall dn dd mn md sn sd : number,
         let dms := VArr [VArr [VNum dn; VNum dd];
                          VArr [VNum mn; VNum md];
                          VArr [VNum sn; VNum sd]] in
         convertDMSToDecimal dms =
         Ok (quotient dn dd ⊕ quotient mn md ⊘ Num.ofZ 60
                            ⊕ quotient sn sd ⊘ Num.ofZ 3600)
         /\ (Num.gtb dd (Num.ofZ 0) = true ->
             Num.gtb md (Num.ofZ 0) = true ->
             Num.gtb sd (Num.ofZ 0) = true ->
             convertDMSToDecimal dms =
             Ok (dn ⊘ dd ⊕ (mn ⊘ md) ⊘ Num.ofZ 60 ⊕ (sn ⊘ sd) ⊘ Num.ofZ 3600))).
Proof.
  split.
  - apply convertDMSToDecimal_shape.
  - intros dn dd mn md sn sd dms. split; [reflexivity|].
    intros Hd Hm Hs.
    change (convertDMSToDecimal dms) with
      (Ok (quotient dn dd ⊕ quotient mn md ⊘ Num.ofZ 60
                          ⊕ quotient sn sd ⊘ Num.ofZ 3600)).
    unfold quotient.
    by rewrite !positive_not_zero.
Qed.

(** C2 at work: a wrong length or a string gives [0], a zero denominator
    zeroes its component, and 40 degrees 30 minutes 36 seconds with the
    denominators [1], [2] and [10] is
    [40 / 1 + (60 / 2) / 60 + (360 / 10) / 3600]. *)
Lemma convertDMSToDecimal_spec_witness :
  convertDMSToDecimal (VArr [Sample.frac 40 1; Sample.frac 30 1]) = Ok (Num.ofZ 0)
  /\ convertDMSToDecimal (VStr "40,30,0") = Ok (Num.ofZ 0)
  /\ convertDMSToDecimal (Sample.dms 1 0 0 1 0 1) = Ok (Num.ofZ 0)
  /\ convertDMSToDecimal (Sample.dms 40 1 60 2 360 10) =
     Ok (Num.ofZ 40 ⊘ Num.ofZ 1 ⊕ (Num.ofZ 60 ⊘ Num.ofZ 2) ⊘ Num.ofZ 60
           ⊕ (Num.ofZ 360 ⊘ Num.ofZ 10) ⊘ Num.ofZ 3600).
Proof.
  destruct convertDMSToDecimal_spec as [Hshape Hpairs].
  split; [|split; [|split]].
  - apply Hshape. right. vm_compute. discriminate.
  - apply Hshape. left. reflexivity.
  - destruct (Hpairs (Num.ofZ 1) (Num.ofZ 0) (Num.ofZ 0) (Num.ofZ 1)
                     (Num.ofZ 0) (Num.ofZ 1)) as [H _].
    etransitivity; [exact H|]. vm_compute. reflexivity.
  - apply (Hpairs (Num.ofZ 40) (Num.ofZ 1) (Num.ofZ 60) (Num.ofZ 2)
                  (Num.ofZ 360) (Num.ofZ 10)); reflexivity.
Defined.






(** C5, as the code has it. The direction letters of [formatted] come from
    the sign of the corrected latitude and longitude before they are
    rounded ([>= 0] gives N and E, [< 0] gives S and W), and the
    magnitudes are those values' absolute values with six fractional
    digits; the [latitude] and [longitude] fields are the same values
    rounded. *)
Theorem formatted_spec (raw : dict) (c : LocationCoordinates) :
  processLocationCoordinates raw = Ok (Some c) ->
  exists lat lon,
    resolveDecimals raw = Ok (Some (lat, lon))
    /\ latitude c = round6 lat
    /\ longitude c = round6 lon
    /\ formatted c =
       Conv.toFixed 6 (Num.abs lat) +:+ "° "
       +:+ (if Num.geb lat (Num.ofZ 0) then "N" else "S") +:+ ", "
       +:+ Conv.toFixed 6 (Num.abs lon) +:+ "° "
       +:+ (if Num.geb lon (Num.ofZ 0) then "E" else "W").
Proof.
  intros (lat & lon & Hres & ->)%processLocationCoordinates_Some.
  exists lat, lon. by repeat split.
Qed.

(** C5 at work: latitude -10.5 and longitude 45 are formatted as in the
    specification's example. *)
Lemma formatted_spec_witness :
  exists c,
    processLocationCoordinates
      (Sample.gps (Sample.dms 10 1 30 1 0 1) "S" (Sample.dms 45 1 0 1 0 1) "E")
    = Ok (Some c)
    /\ latitude c = Sample.minusTenAndAHalf
    /\ longitude c = Num.ofZ 45
    /\ formatted c = "10.500000° S, 45.000000° E".
Proof.
  eexists. split; [vm_compute; reflexivity|].
  match goal with
  | |- context [latitude ?c] =>
      destruct (formatted_spec
                  (Sample.gps (Sample.dms 10 1 30 1 0 1) "S"
                              (Sample.dms 45 1 0 1 0 1) "E") c)
        as (lat & lon & Hres & Hlat & Hlon & Hfmt); [vm_compute; reflexivity|]
  end.
  assert (lat = Sample.minusTenAndAHalf /\ lon = Num.ofZ 45) as [-> ->].
  { vm_compute in Hres. injection Hres as <- <-. split; vm_compute; reflexivity. }
  rewrite Hfmt. repeat split; vm_compute; reflexivity.
Defined.

(** C5 as stated fails where a negative latitude rounds to zero: a
    thousandth of a second of arc south of the equator the [latitude]
    field is [-0], which is [>= 0], and the letter is S all the same. *)
Lemma formatted_letter_not_from_rounded :
  exists c,
    processLocationCoordinates Sample.equator = Ok (Some c)
    /\ latitude c = S754_zero true
    /\ Num.geb (latitude c) (Num.ofZ 0) = true
    /\ formatted c = "0.000000° S, 74.000000° W"
    /\ formattedOfFields c = "0.000000° N, 74.000000° W".
Proof. eexists. repeat split; vm_compute; reflexivity. Qed.

(** C6, as the code has it. [mapsUrl] is
    [https://maps.google.com/?q={lat},{lon}] with the corrected signed
    decimals before rounding, printed in full; the [latitude] and
    [longitude] fields are the same values rounded to six fractional
    digits. *)
Theorem mapsUrl_spec (raw : dict) (c : LocationCoordinates) :
  processLocationCoordinates raw = Ok (Some c) ->
  exists lat lon,
    resolveDecimals raw = Ok (Some (lat, lon))
    /\ latitude c = round6 lat
    /\ longitude c = round6 lon
    /\ mapsUrl c =
       "https://maps.google.com/?q=" +:+ Conv.toString lat +:+ ","
       +:+ Conv.toString lon.
Proof.
  intros (lat & lon & Hres & ->)%processLocationCoordinates_Some.
  exists lat, lon. by repeat split.
Qed.

(** C6 at work: where the decimals have at most six fractional digits the
    link shows the values of the fields. *)
Lemma mapsUrl_spec_witness :
  exists c,
    processLocationCoordinates Sample.newYork = Ok (Some c)
    /\ mapsUrl c = "https://maps.google.com/?q=40.5,-74"
    /\ mapsUrlOfFields c = "https://maps.google.com/?q=40.5,-74".
Proof.
  eexists. split; [vm_compute; reflexivity|].
  match goal with
  | |- context [mapsUrl ?c] =>
      destruct (mapsUrl_spec Sample.newYork c)
        as (lat & lon & Hres & Hlat & Hlon & Hurl); [vm_compute; reflexivity|]
  end.
  rewrite Hurl. vm_compute in Hres. injection Hres as <- <-.
  split; vm_compute; reflexivity.
Defined.

(** C6 as stated fails as soon as rounding changes a value: with one
    second of arc more, the link carries the latitude in full while the
    field has six fractional digits. *)
Lemma mapsUrl_not_from_rounded :
  exists c,
    processLocationCoordinates Sample.newYork1 = Ok (Some c)
    /\ Conv.toString (latitude c) = "40.500278"
    /\ mapsUrl c = "https://maps.google.com/?q=40.500277777777775,-74"
    /\ mapsUrlOfFields c = "https://maps.google.com/?q=40.500278,-74".
Proof. eexists. repeat split; vm_compute; reflexivity. Qed.

(** ** The display mapping *)


(** Outside the three GPS keys the output is the result of the two
    passes. *)
Lemma cleanMetadata_lookup (raw cleaned : dict) (k : string) :
  cleanMetadata raw = Ok cleaned ->
  ~ gpsKey k ->
  cleaned !! k = cleanedEntries (filteredData raw) !! k.
Proof.
  unfold cleanMetadata, gpsKey. intros Hclean Hk.
  destruct (processLocationCoordinates raw) as [[c|]|]; inversion Hclean; [|done].
  rewrite !lookup_insert_ne by naive_solver. done.
Qed.

(** Under a GPS key the output holds a number or the coordinate object
    when the resolver returned a coordinate. *)
Lemma cleanMetadata_lookup_gps (raw cleaned : dict) (c : LocationCoordinates) (k : string) :
  processLocationCoordinates raw = Ok (Some c) ->
  cleanMetadata raw = Ok cleaned ->
  gpsKey k ->
  cleaned !! k = Some (if String.eqb k "GPSLatitude" then VNum (latitude c)
                       else if String.eqb k "GPSLongitude" then VNum (longitude c)
                       else coordinatesValue c).
Proof.
  intros Hc Hclean Hk. rewrite (cleanMetadata_Some _ _ Hc) in Hclean.
  injection Hclean as <-.
  destruct Hk as [-> | [-> | ->]].
  - rewrite !lookup_insert_ne by done. by rewrite lookup_insert_eq.
  - rewrite !lookup_insert_ne by done. by rewrite lookup_insert_eq.
  - by rewrite lookup_insert_eq.
Qed.















(** * Further properties of the service *)

(** ** Failure *)



(** ** Components that are not a number *)








(** ** What the output holds *)

(** X3. When the resolver returns a coordinate, the output of
    [cleanMetadata] holds the rounded latitude and longitude as numbers
    under [GPSLatitude] and [GPSLongitude], whatever the raw tags unwrap
    to, and under [GPSCoordinates] an object whose four properties read
    back as the coordinate's fields. In every case a key of the output is
    a key of the raw dictionary or, with a coordinate resolved, one of
    these three. *)
Theorem cleanMetadata_gps_entries (raw cleaned : dict) :
  cleanMetadata raw = Ok cleaned ->
  (forall c : LocationCoordinates,
      processLocationCoordinates raw = Ok (Some c) ->
      cleaned !! "GPSLatitude" = Some (VNum (latitude c))
      /\ cleaned !! "GPSLongitude" = Some (VNum (longitude c))
      /\ exists object,
          cleaned !! "GPSCoordinates" = Some object
          /\ JS.get object "latitude" = VNum (latitude c)
          /\ JS.get object "longitude" = VNum (longitude c)
          /\ JS.get object "formatted" = VStr (formatted c)
          /\ JS.get object "mapsUrl" = VStr (mapsUrl c))
  /\ (forall k : string,
         is_Some (cleaned !! k) ->
         is_Some (raw !! k)
         \/ gpsKey k /\ exists c, processLocationCoordinates raw = Ok (Some c)).
Proof.
  intros Hclean. split.
  - intros c Hc.
    rewrite (cleanMetadata_lookup_gps raw cleaned c "GPSLatitude" Hc Hclean)
      by (by left).
    rewrite (cleanMetadata_lookup_gps raw cleaned c "GPSLongitude" Hc Hclean)
      by (right; by left).
    rewrite (cleanMetadata_lookup_gps raw cleaned c "GPSCoordinates" Hc Hclean)
      by (right; by right).
    split; [done|]. split; [done|].
    exists (coordinatesValue c). by repeat split.
  - intros k [w Hw].
    destruct (decide (gpsKey k)) as [Hgps|Hgps].
    + destruct (processLocationCoordinates raw) as [[c|]|] eqn:Hc.
      * right. split; [done | by exists c].
      * rewrite (cleanMetadata_None _ Hc) in Hclean. injection Hclean as <-.
        rewrite lookup_cleaned in Hw. left.
        destruct (raw !! k); [by eexists | done].
      * unfold cleanMetadata in Hclean. by rewrite Hc in Hclean.
    + rewrite (cleanMetadata_lookup raw cleaned k Hclean Hgps), lookup_cleaned in Hw.
      left. destruct (raw !! k); [by eexists | done].
Qed.

(** X3 at work: the description of a resolving [GPSLatitude] tag gives way
    to the decimal. *)
Lemma cleanMetadata_gps_entries_witness :
  let described : dict :=
    <["GPSLatitude" := VObj (<["description" := VStr "40.5"]>
                             {[ "value" := Sample.dms 40 1 30 1 0 1 ]})]>
      Sample.newYork in
  exists cleaned,
    cleanMetadata described = Ok cleaned
    /\ cleaned !! "GPSLatitude" = Some (VNum (Num.div (Num.ofZ 81) (Num.ofZ 2)))
    /\ cleaned !! "GPSLongitude" = Some (VNum (Num.ofZ (-74))).
Proof.
  intros described.
  destruct (proj2 (cleanMetadata_returns described)) as [cleaned Hclean];
    [unfold returns; eexists; vm_compute; reflexivity|].
  exists cleaned. split; [exact Hclean|].
  destruct (cleanMetadata_gps_entries described cleaned Hclean) as [Hgps _].
  destruct (Hgps (buildCoordinates (Num.div (Num.ofZ 81) (Num.ofZ 2)) (Num.ofZ (-74))))
    as (Hlat & Hlon & _); [vm_compute; reflexivity|].
  rewrite Hlat, Hlon. split; vm_compute; reflexivity.
Defined.

(** ** What the resolver reads *)









(** ** The sign of a corrected coordinate *)

Lemma binary_round_aux_sign (m e : Z) (l : location) :
  notPositive (binary_round_aux Num.prec Num.emax true m e l).
Proof.
  unfold binary_round_aux.
  destruct (shr_fexp Num.prec Num.emax m e l) as [mrs' e'].
  destruct (shr_fexp Num.prec Num.emax _ e' loc_Exact) as [mrs'' e''].
  destruct (shr_m mrs'') as [|p|p]; [done| |done].
  by destruct (e'' <=? Num.emax - Num.prec).
Qed.

Lemma ofDecimal_sign (m : positive) (e : Z) : notPositive (Num.ofDecimal true m e).
Proof.
  unfold Num.ofDecimal. destruct (0 <=? e) eqn:He.
  - apply Z.leb_le in He.
    assert (Hpos : 0 <= Z.pos m * 10 ^ e) by (apply Z.mul_nonneg_nonneg; lia).
    destruct (Z.pos m * 10 ^ e) as [|q|q]; [done| |lia].
    change (notPositive (binary_round Num.prec Num.emax true q 0)).
    unfold binary_round.
    destruct (shl_align q 0 (fexp Num.prec Num.emax (Z.pos (digits2_pos q) + 0)))
      as [mz ez].
    apply binary_round_aux_sign.
  - unfold SFdiv.
    destruct (SFdiv_core_binary Num.prec Num.emax (Z.pos m) 0
                (Z.pos (Z.to_pos (10 ^ (- e)))) 0) as [[mz ez] lz].
    apply binary_round_aux_sign.
Qed.

(** A literal with a minus sign is read as a number that is not above
    zero. *)
Lemma parseFloat_minus (r : string) : notPositive (Conv.parseFloat (String "-" r)).
Proof.
  unfold Conv.parseFloat.
  change (Str.trimStart (String "-" r)) with (String "-" r).
  change (Conv.parseSign (String "-" r)) with (true, r).
  unfold Conv.parseUnsigned.
  destruct (String.prefix "Infinity" r); [done|].
  destruct (Str.spanDigits r) as [ip r1].
  destruct (match r1 with
            | String "." r0 =>
                let '(fp, r') := Str.spanDigits r0 in
                if Str.isEmpty ip && Str.isEmpty fp then (EmptyString, r1) else (fp, r')
            | _ => (EmptyString, r1)
            end) as [fp r2].
  destruct (Str.isEmpty ip && Str.isEmpty fp); [done|].
  destruct (Conv.parseExponent r2) as [ex r3].
  destruct (Str.digitsToZ 0 (ip +:+ fp)); [done| |done].
  apply ofDecimal_sign.
Qed.

Lemma toFixed_negative (f : Z) (m : positive) (e : Z) :
  exists r, Conv.toFixed f (S754_finite true m e) = String "-" r.
Proof.
  unfold Conv.toFixed. destruct (Conv.fraction m e) as [n d].
  destruct (10 ^ 21 <=? n / d); eexists; reflexivity.
Qed.

(** Rounding [-|x|] to six places never gives a number above zero. *)
Lemma round6_neg_abs (x : number) : notPositive (round6 (Num.neg (Num.abs x))).
Proof.
  unfold round6.
  destruct x as [[]|[]| |s m e];
    [vm_compute; reflexivity | vm_compute; reflexivity | vm_compute; reflexivity
    | vm_compute; reflexivity | vm_compute; reflexivity |].
  change (Num.neg (Num.abs (S754_finite s m e))) with (S754_finite true m e).
  destruct (toFixed_negative 6 m e) as [r ->]. apply parseFloat_minus.
Qed.

(** X6. Whatever the fractions hold, negative or not finite included: with
    a latitude reference that normalizes to [S] the [latitude] field of
    the coordinate is never above zero, and with a longitude reference
    that starts with [W] the [longitude] field is never above zero. *)
Theorem reference_bounds_sign (raw : dict) (c : LocationCoordinates) :
  processLocationCoordinates raw = Ok (Some c) ->
  (normalizeRef (refRaw raw "GPSLatitudeRef") = Ok "S" ->
   Num.gtb (latitude c) (Num.ofZ 0) = false)
  /\ (forall lonRef : string,
         normalizeRef (refRaw raw "GPSLongitudeRef") = Ok lonRef ->
         Str.startsWith lonRef "W" = true ->
         Num.gtb (longitude c) (Num.ofZ 0) = false).
Proof.
  intros (lat & lon & Hres & ->)%processLocationCoordinates_Some.
  rewrite resolveDecimals_eq in Hres.
  destruct (hasDMS raw); [|done].
  destruct (convertDMSToDecimal (JS.get (JS.field raw "GPSLatitude") "value"))
    as [lat0|]; [|done].
  destruct (convertDMSToDecimal (JS.get (JS.field raw "GPSLongitude") "value"))
    as [lon0|]; [|done].
  injection Hres as <- <-. rewrite !normalizeRef_refRaw. split.
  - intros [= ->]. apply round6_neg_abs.
  - intros lonRef [= ->] HW. unfold correctLongitude. rewrite HW.
    apply round6_neg_abs.
Qed.

(** X6 at work: fractions with a negative numerator under the references
    [S] and [W]. *)
Lemma reference_bounds_sign_witness :
  exists c,
    processLocationCoordinates
      (Sample.gps (Sample.dms (-33) 1 52 1 0 1) "S" (Sample.dms (-151) 1 12 1 0 1) "W")
    = Ok (Some c)
    /\ Num.gtb (latitude c) (Num.ofZ 0) = false
    /\ Num.gtb (longitude c) (Num.ofZ 0) = false.
Proof.
  eexists. split; [vm_compute; reflexivity|].
  match goal with
  | |- context [latitude ?c] =>
      destruct (reference_bounds_sign
                  (Sample.gps (Sample.dms (-33) 1 52 1 0 1) "S"
                              (Sample.dms (-151) 1 12 1 0 1) "W") c)
        as [Hlat Hlon]; [vm_compute; reflexivity|]
  end.
  split; [apply Hlat; reflexivity | apply (Hlon "W"); reflexivity].
Defined.

(** ** The letters at zero *)





(** ** Description before value *)



(** * Properties of the display *)

(** ** Categories *)

(** X9. Every category that [getCategoryForField] returns has an entry in
    [categoryConfig]: the icon, label and colour that the display reads
    from the configuration of a field's category are always there. *)
Theorem category_configured (key : string) :
  exists config,
    DataDisplay.categoryConfig !! DataDisplay.getCategoryForField key = Some config.
Proof.
  unfold DataDisplay.getCategoryForField.
  repeat match goal with
         | |- context [if ?b then _ else _] => destruct b
         end; eexists; reflexivity.
Qed.

Lemma lowerChar_upperChar (c : ascii) :
  Text.lowerChar (Str.upperChar c) = Text.lowerChar c.
Proof. by destruct c as [[] [] [] [] [] [] [] []]. Qed.

Lemma lowerChar_lowerChar (c : ascii) :
  Text.lowerChar (Text.lowerChar c) = Text.lowerChar c.
Proof. by destruct c as [[] [] [] [] [] [] [] []]. Qed.

Lemma toLowerCase_toUpperCase (s : string) :
  Text.toLowerCase (Str.toUpperCase s) = Text.toLowerCase s.
Proof. induction s as [|c s IH]; [done|]. simpl. by rewrite lowerChar_upperChar, IH. Qed.

Lemma toLowerCase_toLowerCase (s : string) :
  Text.toLowerCase (Text.toLowerCase s) = Text.toLowerCase s.
Proof. induction s as [|c s IH]; [done|]. simpl. by rewrite lowerChar_lowerChar, IH. Qed.

(** X10. The category and the icon of a field do not depend on the case
    of the letters of its key. *)
Theorem category_ignores_case (key : string) :
  DataDisplay.getCategoryForField (Str.toUpperCase key)
  = DataDisplay.getCategoryForField key
  /\ DataDisplay.getCategoryForField (Text.toLowerCase key)
     = DataDisplay.getCategoryForField key
  /\ DataDisplay.getIconForField (Str.toUpperCase key)
     = DataDisplay.getIconForField key
  /\ DataDisplay.getIconForField (Text.toLowerCase key)
     = DataDisplay.getIconForField key.
Proof.
  unfold DataDisplay.getCategoryForField, DataDisplay.getIconForField.
  by rewrite toLowerCase_toUpperCase, toLowerCase_toLowerCase.
Qed.



(** ** Icons *)

(** X12. Outside the categories [serial] and [camera] the icon shown next
    to a field is the icon configured for the field's category, and the
    copyright icon marks exactly the fields of the category
    [copyright]. *)
Theorem icon_of_category (key : string) :
  (DataDisplay.getCategoryForField key <> "serial" ->
   DataDisplay.getCategoryForField key <> "camera" ->
   exists config,
     DataDisplay.categoryConfig !! DataDisplay.getCategoryForField key = Some config
     /\ DataDisplay.icon (DataDisplay.getIconForField key)
        = DataDisplay.configIcon config)
  /\ (DataDisplay.icon (DataDisplay.getIconForField key) = DataDisplay.Copyright
      <-> DataDisplay.getCategoryForField key = "copyright").
Proof.
  unfold DataDisplay.getCategoryForField, DataDisplay.getIconForField.
  set (l := Text.toLowerCase key).
  destruct (_ || _ || _ || _ || Text.includes l "rights").
  { split; [intros _ _; eexists; split; reflexivity | done]. }
  destruct (Text.includes l "serial"); cbn [orb andb].
  { split; [done | split; discriminate]. }
  destruct (Text.includes l "body"); cbn [orb andb].
  { split; [done|]. rewrite !andb_false_r. cbn [orb].
    destruct (_ || Text.includes l "location"); [split; discriminate|].
    destruct (_ || Text.includes l "time"); [split; discriminate|].
    destruct (_ || _ || Text.includes l "model"); split; discriminate. }
  rewrite !andb_false_r. cbn [orb].
  destruct (Text.includes l "lens" && Text.includes l "number") eqn:Elens.
  { split; [done|].
    destruct (_ || Text.includes l "location"); [split; discriminate|].
    destruct (_ || Text.includes l "time"); [split; discriminate|].
    destruct (_ || _ || Text.includes l "model"); split; discriminate. }
  destruct (_ || Text.includes l "location").
  { split; [intros _ _; eexists; split; reflexivity | split; discriminate]. }
  destruct (_ || Text.includes l "time").
  { split; [intros _ _; eexists; split; reflexivity | split; discriminate]. }
  destruct (_ || _ || Text.includes l "model"); cbn [orb].
  { split; [done | split; discriminate]. }
  destruct (Text.includes l "lens"); cbn [orb].
  { split; [done | split; discriminate]. }
  destruct (Text.includes l "focal"); cbn [orb].
  { split; [done | split; discriminate]. }
  destruct (_ || _ || _ || _ || _ || Text.includes l "white");
    (split; [intros _ _; eexists; split; reflexivity | split; discriminate]).
Qed.

(** X12 at work: a GPS field carries the map pin of its category, while
    [FocalLength], of the category [camera], carries the settings
    icon. *)
Lemma icon_of_category_witness :
  DataDisplay.icon (DataDisplay.getIconForField "GPSLatitude") = DataDisplay.MapPin
  /\ DataDisplay.getCategoryForField "FocalLength" = "camera"
  /\ DataDisplay.icon (DataDisplay.getIconForField "FocalLength") = DataDisplay.Settings.
Proof.
  destruct (icon_of_category "GPSLatitude") as [Hicon _].
  destruct Hicon as (config & Hconfig & ->);
    [vm_compute; discriminate | vm_compute; discriminate |].
  vm_compute in Hconfig. injection Hconfig as <-.
  repeat split; vm_compute; reflexivity.
Defined.

(** ** Groups *)

Lemma lookup_groupStep (acc : gmap string (list (string * value)))
    (entry : string * value) (c : string) :
  DataDisplay.groupStep acc entry !! c =
  if decide (DataDisplay.getCategoryForField entry.1 = c)
  then Some (default [] (acc !! c) ++ [entry])%list
  else acc !! c.
Proof.
  destruct entry as [key v]. unfold DataDisplay.groupStep. simpl.
  case_decide as Hc.
  - subst c. rewrite lookup_insert_eq. f_equal. f_equal.
    destruct (acc !! DataDisplay.getCategoryForField key) eqn:E; [by rewrite E|].
    by rewrite lookup_insert_eq.
  - rewrite lookup_insert_ne by done.
    destruct (acc !! DataDisplay.getCategoryForField key); [done|].
    by rewrite lookup_insert_ne.
Qed.

Lemma lookup_fold_groupStep (entries : list (string * value))
    (acc : gmap string (list (string * value))) (c : string) :
  fold_left DataDisplay.groupStep entries acc !! c =
  match acc !! c, fieldsOf c entries with
  | None, [] => None
  | o, l => Some (default [] o ++ l)%list
  end.
Proof.
  revert acc. induction entries as [|entry entries IH]; intros acc.
  - simpl. destruct (acc !! c); [by rewrite app_nil_r | done].
  - simpl. rewrite IH, lookup_groupStep. unfold fieldsOf.
    case_decide as Hc.
    + rewrite filter_cons_True by done.
      destruct (acc !! c) as [l0|],
        (filter (fun e => DataDisplay.getCategoryForField e.1 = c) entries);
        simpl; by rewrite <- ?app_assoc.
    + by rewrite filter_cons_False.
Qed.

(** X13. [groupedData] is a partition of the fields by category that
    keeps their order: the group stored under a category is the list of
    the fields of that category in the order of the entries, a category
    without fields has no group, and every group belongs to a configured
    category. For the entries of a dictionary, a field is in the group of
    a category exactly when it is an entry of the dictionary and its key
    is of that category. *)
Theorem groupedData_partition (entries : list (string * value)) (c : string) :
  DataDisplay.groupedData entries !! c =
  match fieldsOf c entries with
  | [] => None
  | fields => Some fields
  end
  /\ (is_Some (DataDisplay.groupedData entries !! c) ->
      is_Some (DataDisplay.categoryConfig !! c))
  /\ forall (cleaned : dict) (fields : list (string * value)),
      entries = map_to_list cleaned ->
      DataDisplay.groupedData entries !! c = Some fields ->
      forall (k : string) (v : value),
        (k, v) ∈ fields <->
        cleaned !! k = Some v /\ DataDisplay.getCategoryForField k = c.
Proof.
  assert (Hgroup : DataDisplay.groupedData entries !! c =
                   match fieldsOf c entries with
                   | [] => None
                   | fields => Some fields
                   end).
  { unfold DataDisplay.groupedData. rewrite lookup_fold_groupStep, lookup_empty.
    by destruct (fieldsOf c entries). }
  split; [exact Hgroup|]. split.
  - rewrite Hgroup. destruct (fieldsOf c entries) as [|[key v] fields] eqn:E;
      [by intros [? ?]|].
    intros _.
    assert (Hin : (key, v) ∈ fieldsOf c entries) by (rewrite E; left).
    apply list_elem_of_filter in Hin as [<- _].
    unfold DataDisplay.getCategoryForField.
    repeat match goal with
           | |- context [if ?b then _ else _] => destruct b
           end; eexists; reflexivity.
  - intros cleaned fields -> Hfields k v. rewrite Hgroup in Hfields.
    assert (fields = fieldsOf c (map_to_list cleaned)) as ->
      by (destruct (fieldsOf c (map_to_list cleaned)); congruence).
    unfold fieldsOf. rewrite list_elem_of_filter, elem_of_map_to_list. simpl.
    tauto.
Qed.

(** X13 at work, on three fields of two categories. *)
Lemma groupedData_partition_witness :
  let entries := [("GPSLatitude", VNum (Num.ofZ 40)); ("Make", VStr "Canon");
                  ("GPSLongitude", VNum (Num.ofZ (-74)))] in
  DataDisplay.groupedData entries !! "location"
  = Some [("GPSLatitude", VNum (Num.ofZ 40)); ("GPSLongitude", VNum (Num.ofZ (-74)))]
  /\ DataDisplay.groupedData entries !! "datetime" = None
  /\ is_Some (DataDisplay.categoryConfig !! "location").
Proof.
  intros entries.
  destruct (groupedData_partition entries "location") as (Hloc & Hconfig & _).
  destruct (groupedData_partition entries "datetime") as (Hdate & _).
  split; [rewrite Hloc; vm_compute; reflexivity|].
  split; [rewrite Hdate; vm_compute; reflexivity|].
  apply Hconfig. rewrite Hloc. vm_compute. by eexists.
Defined.

(** ** Rendering *)


(** X14. A coordinate that the resolver returns reaches the page whole:
    the [GPSCoordinates] entry of the cleaned data is rendered by
    [LocationDisplay], which shows the coordinate's [formatted] string,
    its [latitude] and [longitude] fields and its [mapsUrl], and embeds
    the map at the rounded [latitude] and [longitude]. *)
Theorem coordinate_rendered (raw cleaned : dict) (c : LocationCoordinates) :
  processLocationCoordinates raw = Ok (Some c) ->
  cleanMetadata raw = Ok cleaned ->
  exists object,
    cleaned !! "GPSCoordinates" = Some object
    /\ DataDisplay.renderValue "GPSCoordinates" object = DataDisplay.LocationBlock object
    /\ LocationDisplay.LocationDisplay object =
       Ok {| LocationDisplay.formattedText := VStr (formatted c);
             LocationDisplay.latitudeText := VNum (latitude c);
             LocationDisplay.longitudeText := VNum (longitude c);
             LocationDisplay.href := VStr (mapsUrl c);
             LocationDisplay.src :=
               "https://www.google.com/maps?q=" +:+ Conv.toString (latitude c)
               +:+ "," +:+ Conv.toString (longitude c) +:+ "&z=15&output=embed" |}.
Proof.
  intros Hc Hclean. exists (coordinatesValue c).
  rewrite (cleanMetadata_lookup_gps raw cleaned c "GPSCoordinates" Hc Hclean)
    by (right; by right).
  by repeat split.
Qed.

(** X14 at work: the embedded map of the sample one second of arc north
    shows the rounded latitude, the link the full one. *)
Lemma coordinate_rendered_witness :
  exists cleaned object view,
    cleanMetadata Sample.newYork1 = Ok cleaned
    /\ cleaned !! "GPSCoordinates" = Some object
    /\ LocationDisplay.LocationDisplay object = Ok view
    /\ LocationDisplay.src view
       = "https://www.google.com/maps?q=40.500278,-74&z=15&output=embed"
    /\ LocationDisplay.href view
       = VStr "https://maps.google.com/?q=40.500277777777775,-74".
Proof.
  destruct (proj2 (cleanMetadata_returns Sample.newYork1)) as [cleaned Hclean];
    [unfold returns; eexists; vm_compute; reflexivity|].
  destruct (processLocationCoordinates Sample.newYork1) as [[c|]|] eqn:Hc;
    [|vm_compute in Hc; discriminate Hc|vm_compute in Hc; discriminate Hc].
  destruct (coordinate_rendered Sample.newYork1 cleaned c Hc Hclean)
    as (object & Hobject & _ & Hview).
  exists cleaned, object. eexists.
  split; [exact Hclean|]. split; [exact Hobject|]. split; [exact Hview|].
  vm_compute in Hc. injection Hc as <-. split; vm_compute; reflexivity.
Defined.





(** * Properties of the application state *)

Lemma kept_initial : kept App.initial.
Proof. split; [by left | split; done]. Qed.

Lemma kept_step (s : App.State) (e : App.Event) : kept s -> kept (App.step s e).
Proof.
  intros (Hup & Herr & Hdata). destruct e as [[[name url]|]|decoded| |].
  - split; [exact Hup | split; [done | exact Hdata]].
  - done.
  - simpl. unfold App.awaitParse.
    destruct decoded as [tags|];
      [destruct (parseMetadata tags) as [parsed|] eqn:Hparsed|].
    + split; [by right | split; [done|]]. simpl. by exists tags, parsed.
    + split; [exact Hup | split; [done | exact Hdata]].
    + split; [exact Hup | split; [done | exact Hdata]].
  - split; [by left | split; done].
  - split; [by left | split; [exact Herr | exact Hdata]].
Qed.

Lemma kept_run (events : list App.Event) : kept (App.run events).
Proof.
  unfold App.run. generalize kept_initial. generalize App.initial.
  induction events as [|e events IH]; intros s Hs; [done|].
  simpl. by apply IH, kept_step.
Qed.

(** X17. Whatever files are chosen, however their parsing ends and
    whatever is clicked, in any order: the upload area is shown or there
    is data on the page, with which the navigation menu and its
    [Upload New File] button are shown. The user is never left without a
    way to upload. *)
Theorem uploader_within_reach (events : list App.Event) :
  App.showUploader (App.run events) = true \/ App.hasData (App.run events) = true.
Proof. apply kept_run. Qed.

(** X18. In every state that the events can lead to, the loading
    indicator and the error message are not shown together: while
    [isLoading] holds, [error] is empty. *)
Theorem loading_without_error (events : list App.Event) :
  App.isLoading (App.run events) = true -> App.error (App.run events) = EmptyString.
Proof. apply kept_run. Qed.

(** X18 at work: a second file chosen after a failure clears the
    message. *)
Lemma loading_without_error_witness :
  let events := [App.FileChosen (Some ("a.jpg", "blob:a")); App.ParseSettled None;
                 App.FileChosen (Some ("b.jpg", "blob:b"))] in
  App.isLoading (App.run events) = true /\ App.error (App.run events) = EmptyString.
Proof.
  intros events. split; [reflexivity|].
  apply (loading_without_error events). reflexivity.
Defined.



(** X20. A failure inside the service ends in the error message, not in a
    crash: when [cleanMetadata] throws on the decoded tags, or the decoder
    fails, the upload ends with the failure message, loading off and the
    uploader as it was. The data of an earlier file stays in the state,
    now under the name and preview of the new file. *)
Theorem rejected_parse (s : App.State) (name url : string) (decoded : option dict) :
  (forall tags, decoded = Some tags -> exists e, cleanMetadata tags = Throw e) ->
  let s' := App.step (App.step s (App.FileChosen (Some (name, url))))
                     (App.ParseSettled decoded) in
  App.error s' = App.failureMessage
  /\ App.isLoading s' = false
  /\ App.showUploader s' = App.showUploader s
  /\ App.fileName s' = name /\ App.imageUrl s' = url
  /\ App.metadataData s' = App.metadataData s
  /\ App.cleanedData s' = App.cleanedData s.
Proof.
  intros Hthrows s'. subst s'.
  assert (Hnone : App.awaitParse decoded = None).
  { unfold App.awaitParse. destruct decoded as [tags|]; [|done].
    destruct (Hthrows tags eq_refl) as [e He].
    unfold parseMetadata. by rewrite He. }
  simpl. rewrite Hnone. by repeat split.
Qed.

(** X20 at work: the tags with three plain numbers, after a file that
    parsed. *)
Lemma rejected_parse_witness :
  let s := App.run [App.FileChosen (Some ("a.jpg", "blob:a"));
                    App.ParseSettled (Some Sample.newYork)] in
  let s' := App.step (App.step s (App.FileChosen (Some ("b.jpg", "blob:b"))))
                     (App.ParseSettled (Some Sample.plainNumbers)) in
  App.error s' = App.failureMessage
  /\ App.fileName s' = "b.jpg"
  /\ App.hasData s' = true
  /\ App.metadataData s' = App.metadataData s.
Proof.
  intros s s'.
  destruct (rejected_parse s "b.jpg" "blob:b" (Some Sample.plainNumbers))
    as (Herr & _ & _ & Hname & _ & Hraw & Hcleaned).
  { intros tags [= <-]. exists TypeError. vm_compute. reflexivity. }
  split; [exact Herr|]. split; [exact Hname|]. split; [|exact Hraw].
  vm_compute. reflexivity.
Defined.
